(** * The prediction-serving contract of [api/app.py]

    A shallow embedding of the FastAPI service: the two module globals
    ([model], [REQUIRED_COLUMNS]), the startup hook and the three routes
    ([root], [health], [predict]), followed by the properties of the
    serving contract.

    Python dictionaries keep insertion order and [pd.DataFrame] derives its
    column order from it, so an instance is an association list.  The handlers
    run in a small state-and-exception monad over the module globals; the
    state also carries a log of the frames handed to [model.predict], which
    is how "the model was (not) invoked" is observed. *)

From Stdlib Require Import ZArith Lia Ascii DecimalString.
From stdpp Require Import base option list sorting gmap strings.

Local Open Scope Z_scope.

(** ** Python text formatting *)

Module Py.

Definition dquote : ascii := "034"%char.
Definition squote : ascii := "'"%char.
Definition backslash : ascii := "\"%char.

Fixpoint contains (c : ascii) (s : string) : bool :=
  match s with
  | EmptyString => false
  | String a s' => if Ascii.eqb a c then true else contains c s'
  end.

Definition hex_digit (n : N) : ascii :=
  if (n <? 10)%N then ascii_of_N (48 + n) else ascii_of_N (87 + n).

(** One ASCII character of [repr(str)]: the delimiter [q] and the backslash
    are escaped, the three named control characters get their mnemonic,
    other control characters are written [\xNN], the rest is copied.
    ([repr_body] uses it below 128 only.) *)
Definition repr_char (q : ascii) (c : ascii) : string :=
  let n := N_of_ascii c in
  if Ascii.eqb c q || Ascii.eqb c backslash then String backslash (String c "")
  else if (n =? 9)%N then String backslash "t"
  else if (n =? 10)%N then String backslash "n"
  else if (n =? 13)%N then String backslash "r"
  else if (n <? 32)%N || (n =? 127)%N then
    String backslash
      (String "x" (String (hex_digit (n / 16)) (String (hex_digit (n mod 16)) "")))
  else String c "".

(** [n] in lowercase hexadecimal, on [digits] digits. *)
Fixpoint hex (digits : nat) (n : N) (acc : string) : string :=
  match digits with
  | O => acc
  | S d => hex d (n / 16) (String (hex_digit (n mod 16)) acc)
  end.

(** The escape [repr] writes for a code point that is not printable. *)
Definition escape (cp : N) : string :=
  if (cp <=? 255)%N then String backslash (String "x" (hex 2 cp ""))
  else if (cp <=? 65535)%N then String backslash (String "u" (hex 4 cp ""))
  else String backslash (String "U" (hex 8 cp "")).

(** A character outside ASCII: copied as its [bytes] when [printable] (the
    [str.isprintable] table of Python's Unicode database) says so, escaped
    otherwise. *)
Definition shown (printable : N -> bool) (cp : N) (bytes : string) : string :=
  if printable cp then bytes else escape cp.

(** The low six bits of a continuation byte. *)
Definition tail6 (b : ascii) : N := N_of_ascii b mod 64.

(** The body of [repr(s)], [s] being the UTF-8 of the Python text: ASCII
    goes through [repr_char]; a lead byte and its continuation bytes are
    decoded to a code point, which is copied or escaped.  A sequence cut
    short by the end of the text, which UTF-8 of a [str] never has, is
    copied. *)
Fixpoint repr_body (printable : N -> bool) (q : ascii) (s : string) : string :=
  match s with
  | EmptyString => ""
  | String b0 s1 =>
      let n0 := N_of_ascii b0 in
      if (n0 <? 128)%N then repr_char q b0 +:+ repr_body printable q s1
      else
        match s1 with
        | EmptyString => String b0 ""
        | String b1 s2 =>
            if (n0 <? 224)%N then
              shown printable ((n0 mod 32) * 64 + tail6 b1) (String b0 (String b1 ""))
                +:+ repr_body printable q s2
            else
              match s2 with
              | EmptyString => String b0 (String b1 "")
              | String b2 s3 =>
                  if (n0 <? 240)%N then
                    shown printable
                      ((n0 mod 16) * 4096 + tail6 b1 * 64 + tail6 b2)
                      (String b0 (String b1 (String b2 "")))
                      +:+ repr_body printable q s3
                  else
                    match s3 with
                    | EmptyString => String b0 (String b1 (String b2 ""))
                    | String b3 s4 =>
                        shown printable
                          ((n0 mod 8) * 262144 + tail6 b1 * 4096 + tail6 b2 * 64
                           + tail6 b3)
                          (String b0 (String b1 (String b2 (String b3 ""))))
                          +:+ repr_body printable q s4
                    end
              end
        end
  end.

(** [repr(s)] for a [str]: single quotes, unless the text holds a single
    quote and no double quote. *)
Definition repr (printable : N -> bool) (s : string) : string :=
  let q := if contains squote s && negb (contains dquote s) then dquote else squote in
  String q (repr_body printable q s +:+ String q "").

Fixpoint join (sep : string) (l : list string) : string :=
  match l with
  | [] => ""
  | [x] => x
  | x :: l' => x +:+ sep +:+ join sep l'
  end.

(** [str(l)] for a list of [str]. *)
Definition repr_list (printable : N -> bool) (l : list string) : string :=
  "[" +:+ join ", " (repr printable <$> l) +:+ "]".

Definition str_int (z : Z) : string := NilZero.string_of_int (Z.to_int z).

(** [sorted(s)] for a set of [str]: ascending by code point. *)
Definition sorted (s : gset string) : list string :=
  merge_sort String.le (elements s).

End Py.

(** ** Data model *)

Section Types.

(** Cell values ([Any] in [Dict[str, Any]]) and the raw labels a model
    returns are left abstract. *)
Context {value raw : Type}.

(** One row to classify: feature name to value, in insertion order. *)
Definition Instance : Type := list (string * value).

Fixpoint get (d : Instance) (k : string) : option value :=
  match d with
  | [] => None
  | (k', v) :: d' => if decide (k' = k) then Some v else get d' k
  end.

Definition keys (d : Instance) : list string := fst <$> d.

Record PredictRequest := { instances : list Instance }.

Record PredictResponse := { predictions : list Z; count : Z }.

(** A frame: column labels and one list of cells per row; a cell is [None]
    where pandas puts NaN. *)
Record DataFrame := { columns : list string; rows : list (list (option value)) }.

(** What [getattr(model, "feature_names_in_", [])] followed by [list(...)]
    can meet. *)
Inductive FeatureNames :=
| AttrAbsent
| AttrNames (names : list string)
| AttrNotIterable (err : string).

(** The classifier artifact, a black box: its schema metadata and its
    [predict], which answers with raw labels or raises with a message. *)
Record Model := {
  feature_names_in_ : FeatureNames;
  model_predict : DataFrame -> string + list raw
}.

(** What is at [MODEL_PATH] when the service starts. *)
Inductive Artifact :=
| Absent
| Corrupt (err : string)
| Pickled (m : Model).

(** The module globals, and the log of frames passed to [model.predict]. *)
Record World := {
  model : option Model;
  REQUIRED_COLUMNS : list string;
  predict_calls : list DataFrame
}.

Definition initial : World :=
  {| model := None; REQUIRED_COLUMNS := []; predict_calls := [] |}.

(** ** Exceptions *)

Inductive exn :=
| HTTPException (status_code : Z) (detail : string)
| Exception (message : string).

Definition str (e : exn) : string :=
  match e with
  | Exception m => m
  | HTTPException c d => Py.str_int c +:+ ": " +:+ d
  end.

End Types.

(** How a handler ends: with a value, or with an exception on its way to
    the caller. *)
Inductive Outcome (A : Type) :=
| Returned (a : A)
| Raised (e : exn).
Arguments Returned {A} a.
Arguments Raised {A} e.

(** What the service takes from its runtime: Python's [int] cast on a raw
    label ([None] when it raises), [MODEL_PATH] as resolved when the module
    is imported, the structural rejection of the [pd.DataFrame]
    constructor (the message of the exception it raises on this input, if it
    raises), and [str.isprintable] on a code point outside ASCII (the table
    of Python's Unicode database, which [repr] consults). *)
Class Runtime (value raw : Type) := {
  int : raw -> option Z;
  MODEL_PATH : string;
  pd_reject : list (@Instance value) -> option string;
  isprintable : N -> bool
}.

Section Service.

Context {value raw : Type} {rt : Runtime value raw}.

#[local] Abbreviation World := (@World value raw).
#[local] Abbreviation Model := (@Model value raw).
#[local] Abbreviation DataFrame := (@DataFrame value).
#[local] Abbreviation Instance := (@Instance value).
#[local] Abbreviation Artifact := (@Artifact value raw).

(** ** The handler monad *)

Definition Handler (A : Type) : Type := World -> Outcome A * World.

Definition ret {A} (a : A) : Handler A := fun w => (Returned a, w).

Definition bind {A B} (c : Handler A) (k : A -> Handler B) : Handler B :=
  fun w => match c w with
           | (Returned a, w') => k a w'
           | (Raised e, w') => (Raised e, w')
           end.

Definition raise {A} (e : exn) : Handler A := fun w => (Raised e, w).

(** [try: c except Exception as e: h e] *)
Definition try_except {A} (c : Handler A) (h : exn -> Handler A) : Handler A :=
  fun w => match c w with
           | (Returned a, w') => (Returned a, w')
           | (Raised e, w') => h e w'
           end.

#[local] Instance Handler_ret : MRet Handler := @ret.
#[local] Instance Handler_bind : MBind Handler := fun A B k c => bind c k.

Definition read_model : Handler (option Model) := fun w => (Returned (model w), w).
Definition read_REQUIRED_COLUMNS : Handler (list string) :=
  fun w => (Returned (REQUIRED_COLUMNS w), w).

Definition write_model (m : option Model) : Handler unit :=
  fun w => (Returned tt,
            {| model := m; REQUIRED_COLUMNS := REQUIRED_COLUMNS w;
               predict_calls := predict_calls w |}).

Definition write_REQUIRED_COLUMNS (l : list string) : Handler unit :=
  fun w => (Returned tt,
            {| model := model w; REQUIRED_COLUMNS := l;
               predict_calls := predict_calls w |}).

(** ** pandas *)

(** The labels seen so far, extended by the keys of one dictionary that are
    new. *)
Definition add_keys (seen : list string) (ks : list string) : list string :=
  foldl (fun acc k => if decide (k ∈ acc) then acc else acc ++ [k]) seen ks.

(** Column labels of a frame built from dictionaries: every key, in order
    of first appearance over the batch. *)
Fixpoint union_keys (seen : list string) (ds : list Instance) : list string :=
  match ds with
  | [] => seen
  | d :: ds' => union_keys (add_keys seen (keys d)) ds'
  end.

Definition frame_of (ds : list Instance) : DataFrame :=
  let cols := union_keys [] ds in
  {| columns := cols; rows := (fun d => get d <$> cols) <$> ds |}.

(** [pd.DataFrame(instances)] *)
Definition pd_DataFrame (ds : list Instance) : Handler DataFrame :=
  match pd_reject ds with
  | Some msg => raise (Exception msg)
  | None => ret (frame_of ds)
  end.

(** Position of the first column labelled [c]. *)
Fixpoint index_of (c : string) (cols : list string) : option nat :=
  match cols with
  | [] => None
  | c' :: cols' => if decide (c' = c) then Some 0%nat else S <$> index_of c cols'
  end.

(** One row of [X[cols]]; [None] when a label is not a column of [X]. *)
Definition select_row (xcols : list string) (cols : list string)
    (row : list (option value)) : option (list (option value)) :=
  mapM (fun c => i ← index_of c xcols; row !! i) cols.

(** [X[cols]]: the listed columns in the listed order; [KeyError] when a
    label is not a column of [X]. *)
Definition getitem (X : DataFrame) (cols : list string) : Handler DataFrame :=
  match mapM (select_row (columns X) cols) (rows X) with
  | Some rs => ret {| columns := cols; rows := rs |}
  | None => raise (Exception "KeyError")
  end.

(** ** The model call *)

(** The world once [X] has been passed to [model.predict]. *)
Definition log_call (X : DataFrame) (w : World) : World :=
  {| model := model w; REQUIRED_COLUMNS := REQUIRED_COLUMNS w;
     predict_calls := predict_calls w ++ [X] |}.

(** [model.predict(X)]: logged, then the labels or the exception. *)
Definition predict_with (m : Model) (X : DataFrame) : Handler (list raw) :=
  fun w =>
    match model_predict m X with
    | inl msg => (Raised (Exception msg), log_call X w)
    | inr preds => (Returned preds, log_call X w)
    end.

(** [[int(p) for p in preds]] *)
Fixpoint int_each (preds : list raw) : Handler (list Z) :=
  match preds with
  | [] => ret []
  | p :: preds' =>
      match int p with
      | None => raise (Exception "int")
      | Some z => zs ← int_each preds'; ret (z :: zs)
      end
  end.

(** ** Startup *)

(** [joblib.load(MODEL_PATH)] on an existing file. *)
Definition joblib_load (fs : Artifact) : Handler Model :=
  match fs with
  | Pickled m => ret m
  | Corrupt err => raise (Exception err)
  | Absent => raise (Exception "FileNotFoundError")
  end.

(** [list(getattr(model, "feature_names_in_", []))] *)
Definition list_feature_names (m : Model) : Handler (list string) :=
  match feature_names_in_ m with
  | AttrAbsent => ret []
  | AttrNames names => ret names
  | AttrNotIterable err => raise (Exception err)
  end.

Definition exists_ (fs : Artifact) : bool :=
  match fs with Absent => false | _ => true end.

(** The startup hook; the banner it prints is left out. *)
Definition startup_event (fs : Artifact) : Handler unit :=
  if negb (exists_ fs) then
    write_model None
  else
    try_except
      (m ← joblib_load fs;
       write_model (Some m);;
       names ← list_feature_names m;
       write_REQUIRED_COLUMNS names)
      (fun e => write_model None).

(** ** Routes *)

Record RootResponse := {
  service : string;
  root_model_path : string;
  root_model_loaded : bool;
  required_columns : list string;
  endpoints : list string
}.

Definition root : Handler RootResponse :=
  m ← read_model;
  cols ← read_REQUIRED_COLUMNS;
  ret {| service := "Breast Cancer Prediction API";
         root_model_path := MODEL_PATH;
         root_model_loaded := bool_decide (is_Some m);
         required_columns := cols;
         endpoints := ["/health"; "/predict"; "/docs"] |}.

Record HealthResponse := {
  status : string;
  model_loaded : bool;
  model_path : string;
  hint : option string
}.

Definition health : Handler HealthResponse :=
  m ← read_model;
  match m with
  | None =>
      ret {| status := "not_ready";
             model_loaded := false;
             model_path := MODEL_PATH;
             hint := Some "Model did not load. Check terminal logs printed at startup." |}
  | Some _ =>
      ret {| status := "healthy"; model_loaded := true;
             model_path := MODEL_PATH; hint := None |}
  end.

(** [set(REQUIRED_COLUMNS) - set(X.columns)] *)
Definition missing_columns (required : list string) (X : DataFrame) : gset string :=
  list_to_set required ∖ list_to_set (columns X).

Definition predict (request : PredictRequest) : Handler PredictResponse :=
  m ← read_model;
  match m with
  | None =>
      raise (HTTPException 503 "Model not loaded. Check /health and startup logs.")
  | Some mdl =>
      match instances request with
      | [] => raise (HTTPException 400 "No instances provided")
      | _ :: _ =>
          X ← try_except (pd_DataFrame (instances request))
                 (fun e => raise (HTTPException 400 ("Invalid input format: " +:+ str e)));
          required ← read_REQUIRED_COLUMNS;
          X ← match required with
               | [] => ret X
               | _ :: _ =>
                   let missing := missing_columns required X in
                   if decide (missing = ∅) then getitem X required
                   else raise (HTTPException 400
                                 ("Missing required columns: "
                                    +:+ Py.repr_list isprintable (Py.sorted missing)))
               end;
          preds ← try_except (predict_with mdl X)
                     (fun e => raise (HTTPException 500 ("Prediction failed: " +:+ str e)));
          zs ← int_each preds;
          ret {| predictions := zs; count := Z.of_nat (length preds) |}
      end
  end.

(** The frame an accepted batch reaches the model as: the batch's own frame
    when there is no schema, otherwise one cell per schema column, in schema
    order (lemma [predict_accepted] below relates it to [predict]). *)
Definition aligned_frame (required : list string) (ds : list Instance) : DataFrame :=
  match required with
  | [] => frame_of ds
  | _ :: _ => {| columns := required; rows := (fun d => get d <$> required) <$> ds |}
  end.

(** What [predict] answers once [model.predict] has answered (its last
    six lines; lemma [infer_run] below). *)
Definition answer (r : string + list raw) : Outcome PredictResponse :=
  match r with
  | inl msg => Raised (HTTPException 500 ("Prediction failed: " +:+ msg))
  | inr preds =>
      match mapM int preds with
      | Some zs => Returned {| predictions := zs; count := Z.of_nat (length preds) |}
      | None => Raised (Exception "int")
      end
  end.

End Service.

(** ** A concrete service

    Schema [a, b]; the classifier answers 1 when [a > b] and 0 otherwise, and
    raises on any row that is not two numbers. *)

Module Scenario.

(** [str.isprintable] over Latin-1: the control characters U+0080 to
    U+009F, the no-break space and the soft hyphen are not printable.  The
    names of the scenarios are ASCII, where the table is not consulted. *)
Definition latin1_printable (cp : N) : bool :=
  negb ((cp <=? 160)%N || (cp =? 173)%N).

#[export] Instance runtime : Runtime Z Z :=
  {| int := Some; MODEL_PATH := "models/final_model.joblib"; pd_reject := fun _ => None;
     isprintable := latin1_printable |}.

Definition label (row : list (option Z)) : option Z :=
  match row with
  | [Some a; Some b] => Some (if a >? b then 1 else 0)
  | _ => None
  end.

Definition classify (X : @DataFrame Z) : string + list Z :=
  match mapM label (rows X) with
  | Some labels => inr labels
  | None => inl "Input rejected by the estimator."
  end.

(** Fitted on a labelled frame: the schema is recorded. *)
Definition model_ab : @Model Z Z :=
  {| feature_names_in_ := AttrNames ["a"; "b"]; model_predict := classify |}.

(** Fitted on a bare array: no [feature_names_in_]. *)
Definition model_bare : @Model Z Z :=
  {| feature_names_in_ := AttrAbsent; model_predict := classify |}.

Definition ready : @World Z Z := snd (startup_event (Pickled model_ab) initial).
Definition ready_bare : @World Z Z := snd (startup_event (Pickled model_bare) initial).

Definition batch_ok : @PredictRequest Z :=
  {| instances := [[("a", 5); ("b", 2)]; [("a", 1); ("b", 9)]] |}.

(** The second instance has no [b]; the first one has. *)
Definition batch_ragged : @PredictRequest Z :=
  {| instances := [[("a", 5); ("b", 2)]; [("a", 1)]] |}.

Definition batch_no_b : @PredictRequest Z :=
  {| instances := [[("a", 5)]] |}.

End Scenario.

(** ** The HTTP face of a route *)

(** The status FastAPI answers with: 200 with the returned body, the
    exception's own code for an [HTTPException], 500 for any other exception
    that leaves the handler. *)
Definition status_of {A : Type} (o : Outcome A) : Z :=
  match o with
  | Returned _ => 200
  | Raised (HTTPException c _) => c
  | Raised (Exception _) => 500
  end.

(** A name [repr] has nothing to escape in: printable ASCII, no single
    quote, no backslash. *)
Definition plain_char (c : ascii) : bool :=
  let n := N_of_ascii c in
  (32 <=? n)%N && (n <? 127)%N && negb (Ascii.eqb c Py.squote)
  && negb (Ascii.eqb c Py.backslash).

Fixpoint plain (s : string) : bool :=
  match s with
  | EmptyString => true
  | String c s' => plain_char c && plain s'
  end.

(** Two instances that read alike on the columns [required]. *)
Definition alike {value : Type} (required : list string) (d d' : @Instance value) : Prop :=
  ∀ c, c ∈ required → get d c = get d' c.

(** ** The form client ([streamlit/app.py]) *)

Module Streamlit.

Definition FEATURES : list string :=
  [
    "mean radius"; "mean texture"; "mean perimeter";
    "mean area"; "mean smoothness"; "mean compactness";
    "mean concavity"; "mean concave points"; "mean symmetry";
    "mean fractal dimension"; "radius error"; "texture error";
    "perimeter error"; "area error"; "smoothness error";
    "compactness error"; "concavity error"; "concave points error";
    "symmetry error"; "fractal dimension error"; "worst radius";
    "worst texture"; "worst perimeter"; "worst area";
    "worst smoothness"; "worst compactness"; "worst concavity";
    "worst concave points"; "worst symmetry"; "worst fractal dimension"
  ].

(** A Python object as far as [label_from_pred] can tell: what [int] makes
    of it ([None] when it raises) and what [str] makes of it. *)
Record pyobj := { as_int : option Z; as_str : string }.

(** A Python [int]. *)
Definition of_int (z : Z) : pyobj := {| as_int := Some z; as_str := Py.str_int z |}.

Definition label_from_pred (pred : pyobj) : string :=
  match as_int pred with
  | None => as_str pred
  | Some p =>
      if decide (p = 0) then "Malignant (cancer)"
      else if decide (p = 1) then "Benign (non-cancer)"
      else Py.str_int p
  end.

Record Response := { status_code : Z; text : string }.

(** What a [requests] call comes back with: an exception, or a response. *)
Inductive Transport :=
| Unreachable (err : string)
| Replied (r : Response).

Definition safe_get_health (t : Transport) : string :=
  match t with
  | Replied r => if decide (status_code r = 200) then "healthy" else "unknown"
  | Unreachable _ => "unknown"
  end.

Section Form.

(** [post] is [requests.post(PREDICT_ENDPOINT, json=payload, timeout=30)];
    [json] is [resp.json()], a decoded document or the decoder's exception. *)
Context {value J : Type}.
Variable post : @PredictRequest value -> Transport.
Variable json : Response -> string + J.

Definition call_api (payload : @PredictRequest value) : Outcome J :=
  match post payload with
  | Unreachable err => Raised (Exception err)
  | Replied resp =>
      if decide (status_code resp ≠ 200) then
        Raised (Exception ("API error " +:+ Py.str_int (status_code resp)
                             +:+ ": " +:+ text resp))
      else
        match json resp with
        | inl err => Raised (Exception err)
        | inr data => Returned data
        end
  end.

(** [d[k] = v] *)
Fixpoint setitem (d : @Instance value) (k : string) (v : value) : @Instance value :=
  match d with
  | [] => [(k, v)]
  | (k', v') :: d' => if decide (k' = k) then (k, v) :: d' else (k', v') :: setitem d' k v
  end.

(** The dictionary the form fills: one entry per feature, holding what its
    [st.number_input] returned. *)
Definition user_input (number_input : string -> value) : @Instance value :=
  foldl (fun d feat => setitem d feat (number_input feat)) [] FEATURES.

(** [{"instances": [user_input]}] *)
Definition payload (number_input : string -> value) : @PredictRequest value :=
  {| instances := [user_input number_input] |}.

End Form.

End Streamlit.

(** ** A service for the form

    A classifier fitted on two of the form's features, and a filled form. *)

Module FormScenario.

Import Scenario.

Definition model_two : @Model Z Z :=
  {| feature_names_in_ := AttrNames ["mean area"; "mean radius"];
     model_predict := classify |}.

Definition ready_two : @World Z Z := snd (startup_event (Pickled model_two) initial).

Definition number_input (feat : string) : Z :=
  if decide (feat = "mean area") then 650
  else if decide (feat = "mean radius") then 14
  else 0.

(** The server's reply to a [POST /predict], as the client's [requests]
    sees it; the body is not looked at. *)
Definition post (w : @World Z Z) (req : @PredictRequest Z) : Streamlit.Transport :=
  Streamlit.Replied
    {| Streamlit.status_code := status_of (fst (predict req w));
       Streamlit.text := "" |}.

End FormScenario.

(** ** A fussy runtime

    [int] refuses a negative label, and the classifier labels every row
    -1. *)

Module Fussy.

Definition runtime : Runtime Z Z :=
  {| int := fun p => if decide (0 ≤ p) then Some p else None;
     MODEL_PATH := "models/final_model.joblib";
     pd_reject := fun _ => None;
     isprintable := Scenario.latin1_printable |}.

Definition model_neg : @Model Z Z :=
  {| feature_names_in_ := AttrNames ["a"; "b"];
     model_predict := fun X => inr ((fun _ => -1) <$> rows X) |}.

Definition ready_neg : @World Z Z := snd (startup_event (Pickled model_neg) initial).

End Fussy.

(** ** Artifacts that do not label row by row

    One answers three labels whatever the frame; the other answers NaN for
    every row, a label being an integer or NaN ([None]), which [int] does
    not cast. *)

Module Unruly.

Definition model_three : @Model Z Z :=
  {| feature_names_in_ := AttrNames ["a"; "b"];
     model_predict := fun _ => inr [1; 0; 1] |}.

Definition ready_three : @World Z Z := snd (startup_event (Pickled model_three) initial).

Definition runtime_nan : Runtime Z (option Z) :=
  {| int := fun p => p;
     MODEL_PATH := "models/final_model.joblib";
     pd_reject := fun _ => None;
     isprintable := Scenario.latin1_printable |}.

Definition model_nan : @Model Z (option Z) :=
  {| feature_names_in_ := AttrNames ["a"; "b"];
     model_predict := fun X => inr ((fun _ => None) <$> rows X) |}.

Definition ready_nan : @World Z (option Z) :=
  snd (startup_event (Pickled model_nan) initial).

End Unruly.

(** * Properties *)

(** ** Dictionaries and frames *)

Section Frames.

Context {value : Type}.
Implicit Types (d : @Instance value) (ds : list (@Instance value)).
Implicit Types (c k : string) (cols required seen : list string).

Lemma get_list_to_map d k : get d k = (list_to_map d : gmap string value) !! k.
Proof.
  induction d as [|[k' v] d IH]; simpl; [by rewrite lookup_empty|].
  case_decide as Hk.
  - subst k'. by rewrite lookup_insert_eq.
  - by rewrite lookup_insert_ne.
Qed.

Lemma get_None d k : get d k = None ↔ k ∉ keys d.
Proof. rewrite get_list_to_map. symmetry. apply not_elem_of_list_to_map. Qed.

Lemma get_is_Some d k : is_Some (get d k) ↔ k ∈ keys d.
Proof.
  rewrite <-not_eq_None_Some, get_None.
  split; [apply dec_stable | auto].
Qed.

(** A dictionary read at a key is blind to the order of the items and to
    items under other keys. *)
Lemma get_perm_extra d d' extra k :
  NoDup (keys d') → d' ≡ₚ d ++ extra → k ∉ keys extra → get d' k = get d k.
Proof.
  intros Hnd Hp Hk. rewrite !get_list_to_map.
  rewrite (list_to_map_proper d' (d ++ extra)) by done.
  rewrite list_to_map_app. apply lookup_union_l.
  by apply not_elem_of_list_to_map.
Qed.

Lemma elem_of_add_keys seen ks c :
  c ∈ add_keys seen ks ↔ c ∈ seen ∨ c ∈ ks.
Proof.
  unfold add_keys. revert seen.
  induction ks as [|k ks IH]; intros seen; simpl.
  - rewrite elem_of_nil. tauto.
  - rewrite IH, elem_of_cons. case_decide as Hin.
    + split; [tauto|]. intros [?|[->|?]]; tauto.
    + rewrite elem_of_app, list_elem_of_singleton. tauto.
Qed.

Lemma NoDup_add_keys seen ks : NoDup seen → NoDup (add_keys seen ks).
Proof.
  unfold add_keys. revert seen.
  induction ks as [|k ks IH]; intros seen Hnd; simpl; [done|].
  apply IH. case_decide as Hin; [done|].
  apply NoDup_app. split_and!; [done| |apply NoDup_singleton].
  intros x Hx ->%list_elem_of_singleton. done.
Qed.

Lemma elem_of_union_keys seen ds c :
  c ∈ union_keys seen ds ↔ c ∈ seen ∨ ∃ d, d ∈ ds ∧ c ∈ keys d.
Proof.
  revert seen. induction ds as [|d ds IH]; intros seen; simpl.
  - split; [auto|]. intros [?|(d & Hd & _)]; [done|]. by apply elem_of_nil in Hd.
  - rewrite IH, elem_of_add_keys. split.
    + intros [[?|?]|(d' & ? & ?)]; [by left|right..].
      * exists d. split; [left|done].
      * exists d'. split; [by right|done].
    + intros [?|(d' & [->|?]%elem_of_cons & ?)]; [by left; left|by left; right|].
      right. by exists d'.
Qed.

Lemma NoDup_union_keys seen ds : NoDup seen → NoDup (union_keys seen ds).
Proof.
  revert seen. induction ds as [|d ds IH]; intros seen Hnd; simpl; [done|].
  by apply IH, NoDup_add_keys.
Qed.

(** The labels of a frame built from dictionaries are the keys met in the
    batch. *)
Lemma elem_of_columns_frame_of ds c :
  c ∈ columns (frame_of ds) ↔ ∃ d, d ∈ ds ∧ c ∈ keys d.
Proof.
  unfold frame_of; simpl. rewrite elem_of_union_keys, elem_of_nil. tauto.
Qed.

Lemma add_keys_fresh seen ks :
  NoDup (seen ++ ks) → add_keys seen ks = seen ++ ks.
Proof.
  unfold add_keys. revert seen.
  induction ks as [|k ks IH]; intros seen Hnd; simpl; [by rewrite app_nil_r|].
  rewrite (assoc_L (++) seen [k] ks: seen ++ k :: ks = (seen ++ [k]) ++ ks) in Hnd |- *.
  apply NoDup_app in Hnd as Hnd'. destruct Hnd' as (Hsk & _ & _).
  apply NoDup_app in Hsk as (_ & Hfresh & _).
  rewrite decide_False; [by apply IH|].
  intros Hin. apply (Hfresh k Hin). by left.
Qed.

(** A single dictionary gives its keys as labels, in its own order. *)
Lemma columns_frame_of_single d :
  NoDup (keys d) → columns (frame_of [d]) = keys d.
Proof. intros Hnd. unfold frame_of; simpl. by rewrite add_keys_fresh. Qed.

Lemma index_of_elem c cols :
  c ∈ cols → ∃ i, index_of c cols = Some i ∧ cols !! i = Some c.
Proof.
  induction cols as [|c' cols IH]; intros Hin; [by apply elem_of_nil in Hin|].
  simpl. case_decide as Hc.
  - subst c'. by exists 0%nat.
  - apply elem_of_cons in Hin as [->|Hin]; [done|].
    destruct (IH Hin) as (i & -> & Hi). by exists (S i).
Qed.

(** Reading the cell under label [c] in the row built from [d]. *)
Lemma select_cell d cols c :
  c ∈ cols → (i ← index_of c cols; (get d <$> cols) !! i) = Some (get d c).
Proof.
  intros (i & -> & Hi)%index_of_elem. simpl.
  by rewrite list_lookup_fmap, Hi.
Qed.

Lemma select_row_frame d cols required :
  required ⊆ cols →
  select_row cols required (get d <$> cols) = Some (get d <$> required).
Proof.
  intros Hsub. unfold select_row. apply mapM_Some_2.
  apply Forall2_fmap_r, Forall_Forall2_diag, Forall_forall.
  intros c Hc. by apply select_cell, Hsub.
Qed.

Lemma missing_columns_empty required (X : @DataFrame value) :
  missing_columns required X = ∅ ↔ required ⊆ columns X.
Proof.
  unfold missing_columns. split.
  - intros Hm c Hc. destruct (decide (c ∈ columns X)) as [|Hn]; [done|].
    assert (c ∈ (∅ : gset string)) as []%not_elem_of_empty.
    rewrite <-Hm. by rewrite elem_of_difference, !elem_of_list_to_set.
  - intros Hsub. apply set_eq. intros c.
    rewrite elem_of_difference, !elem_of_list_to_set, elem_of_empty.
    split; [|done]. intros [Hc Hn]. by apply Hn, Hsub.
Qed.

Lemma elem_of_missing_columns required (X : @DataFrame value) c :
  c ∈ missing_columns required X ↔ c ∈ required ∧ c ∉ columns X.
Proof.
  unfold missing_columns.
  by rewrite elem_of_difference, !elem_of_list_to_set.
Qed.

End Frames.

(** ** [sorted] *)

Lemma elem_of_sorted (s : gset string) c : c ∈ Py.sorted s ↔ c ∈ s.
Proof.
  unfold Py.sorted. by rewrite merge_sort_Permutation, elem_of_elements.
Qed.

Lemma NoDup_sorted (s : gset string) : NoDup (Py.sorted s).
Proof.
  unfold Py.sorted. rewrite merge_sort_Permutation. apply NoDup_elements.
Qed.

Lemma StronglySorted_sorted (s : gset string) :
  StronglySorted String.le (Py.sorted s).
Proof. apply (StronglySorted_merge_sort String.le). Qed.

(** ** The handlers, step by step *)

Section Contract.

Context {value raw : Type} {rt : Runtime value raw}.

#[local] Abbreviation World := (@World value raw).
#[local] Abbreviation Model := (@Model value raw).
#[local] Abbreviation DataFrame := (@DataFrame value).
#[local] Abbreviation Instance := (@Instance value).
#[local] Abbreviation PredictRequest := (@PredictRequest value).

Implicit Types (w : World) (m : Model) (X : DataFrame).
Implicit Types (req : PredictRequest) (ds : list Instance) (d : Instance).

#[local] Existing Instance Handler_ret.
#[local] Existing Instance Handler_bind.

Lemma int_each_run (preds : list raw) w :
  int_each preds w =
    (match mapM int preds with
     | Some zs => Returned zs
     | None => Raised (Exception "int")
     end, w).
Proof.
  induction preds as [|p preds IH]; simpl; [done|].
  destruct (int p) as [z|]; simpl; [|done].
  unfold mbind, Handler_bind, bind. rewrite IH.
  by destruct (mapM int preds).
Qed.

Lemma getitem_frame_of ds required w :
  required ⊆ columns (frame_of ds) →
  getitem (frame_of ds) required w =
    (Returned {| columns := required; rows := (fun d => get d <$> required) <$> ds |}, w).
Proof.
  intros Hsub. unfold getitem.
  erewrite mapM_Some_2; [done|].
  simpl. apply Forall2_fmap, Forall_Forall2_diag, Forall_forall.
  intros d _. by apply select_row_frame.
Qed.

Lemma bind_returned {A B} (c : Handler A) (k : A → Handler B) w a w' :
  c w = (Returned a, w') → (c ≫= k) w = k a w'.
Proof. intros Hc. unfold mbind, Handler_bind, bind. by rewrite Hc. Qed.

Lemma bind_raised {A B} (c : Handler A) (k : A → Handler B) w e w' :
  c w = (Raised e, w') → (c ≫= k) w = (Raised e, w').
Proof. intros Hc. unfold mbind, Handler_bind, bind. by rewrite Hc. Qed.

(** Run the first statement of a handler when it returns by computation
    alone (a read of a global, a [ret]). *)
Ltac step := erewrite bind_returned by reflexivity.

(** The last three lines of [predict]: the call, the cast, the response. *)
Lemma infer_run m X w :
  (preds ← try_except (predict_with m X)
             (fun e => raise (HTTPException 500 ("Prediction failed: " +:+ str e)));
   zs ← int_each preds;
   ret {| predictions := zs; count := Z.of_nat (length preds) |}) w
  = (answer (model_predict m X), log_call X w).
Proof.
  unfold answer. destruct (model_predict m X) as [msg|preds] eqn:Hp.
  - erewrite bind_raised; [done|]. unfold try_except, predict_with. by rewrite Hp.
  - erewrite bind_returned; [|unfold try_except, predict_with; by rewrite Hp].
    destruct (mapM int preds) as [zs|] eqn:Hz.
    + erewrite bind_returned; [done|]. by rewrite int_each_run, Hz.
    + erewrite bind_raised; [done|]. by rewrite int_each_run, Hz.
Qed.

Lemma predict_not_loaded req w :
  model w = None →
  predict req w =
    (Raised (HTTPException 503 "Model not loaded. Check /health and startup logs."), w).
Proof.
  intros Hm. unfold predict.
  step. by rewrite Hm.
Qed.

Lemma predict_no_instances req w m :
  model w = Some m → instances req = [] →
  predict req w = (Raised (HTTPException 400 "No instances provided"), w).
Proof.
  intros Hm Hi. unfold predict.
  step. by rewrite Hm, Hi.
Qed.

Lemma predict_malformed req w m msg :
  model w = Some m → instances req ≠ [] → pd_reject (instances req) = Some msg →
  predict req w = (Raised (HTTPException 400 ("Invalid input format: " +:+ msg)), w).
Proof.
  intros Hm Hi Hr. unfold predict.
  step. rewrite Hm.
  destruct (instances req) as [|d ds] eqn:Hds; [done|].
  erewrite bind_raised; [done|]. unfold try_except, pd_DataFrame. by rewrite Hr.
Qed.

(** The batch was taken by the frame constructor; the schema is read next. *)
Lemma predict_framed req w m :
  model w = Some m → instances req ≠ [] → pd_reject (instances req) = None →
  predict req w =
    (X ← match REQUIRED_COLUMNS w with
         | [] => ret (frame_of (instances req))
         | _ :: _ =>
             let missing := missing_columns (REQUIRED_COLUMNS w) (frame_of (instances req)) in
             if decide (missing = ∅)
             then getitem (frame_of (instances req)) (REQUIRED_COLUMNS w)
             else raise (HTTPException 400
                           ("Missing required columns: "
                              +:+ Py.repr_list isprintable (Py.sorted missing)))
         end;
     preds ← try_except (predict_with m X)
               (fun e => raise (HTTPException 500 ("Prediction failed: " +:+ str e)));
     zs ← int_each preds;
     ret {| predictions := zs; count := Z.of_nat (length preds) |}) w.
Proof.
  intros Hm Hi Hr. unfold predict.
  step. rewrite Hm.
  destruct (instances req) as [|d ds] eqn:Hds; [done|].
  erewrite bind_returned;
    [|unfold try_except, pd_DataFrame; rewrite Hr; reflexivity].
  step.
  by destruct (REQUIRED_COLUMNS w).
Qed.

Lemma predict_missing req w m :
  model w = Some m → instances req ≠ [] → pd_reject (instances req) = None →
  missing_columns (REQUIRED_COLUMNS w) (frame_of (instances req)) ≠ ∅ →
  predict req w =
    (Raised (HTTPException 400
               ("Missing required columns: "
                  +:+ Py.repr_list isprintable
                        (Py.sorted (missing_columns (REQUIRED_COLUMNS w)
                                      (frame_of (instances req)))))), w).
Proof.
  intros Hm Hi Hr Hmiss. rewrite (predict_framed req w m) by done.
  destruct (REQUIRED_COLUMNS w) as [|c cols] eqn:Hreq.
  - exfalso. apply Hmiss. by apply missing_columns_empty, list_subseteq_nil.
  - erewrite bind_raised; [done|]. simpl. by rewrite decide_False.
Qed.

(** An accepted batch reaches the model once, as [aligned_frame]; the answer
    is the model's, translated. *)
Lemma predict_accepted req w m :
  model w = Some m → instances req ≠ [] → pd_reject (instances req) = None →
  missing_columns (REQUIRED_COLUMNS w) (frame_of (instances req)) = ∅ →
  predict req w =
    (answer (model_predict m (aligned_frame (REQUIRED_COLUMNS w) (instances req))),
     log_call (aligned_frame (REQUIRED_COLUMNS w) (instances req)) w).
Proof.
  intros Hm Hi Hr Hmiss. rewrite (predict_framed req w m) by done.
  destruct (REQUIRED_COLUMNS w) as [|c cols] eqn:Hreq.
  - step. apply infer_run.
  - erewrite bind_returned; [apply infer_run|].
    simpl. rewrite decide_True by done.
    by apply getitem_frame_of, missing_columns_empty.
Qed.

(** Every run of [predict] is one of the five above. *)
Lemma predict_cases req w :
  (∃ code detail,
      predict req w = (Raised (HTTPException code detail), w)
      ∧ (code = 503 ∨ code = 400))
  ∨ (∃ m, model w = Some m
      ∧ predict req w =
          (answer (model_predict m (aligned_frame (REQUIRED_COLUMNS w) (instances req))),
           log_call (aligned_frame (REQUIRED_COLUMNS w) (instances req)) w)).
Proof.
  destruct (model w) as [m|] eqn:Hm.
  2:{ left. eexists _, _. split; [by apply predict_not_loaded|by left]. }
  destruct (decide (instances req = [])) as [Hi|Hi].
  { left. eexists _, _. split; [by eapply predict_no_instances|by right]. }
  destruct (pd_reject (instances req)) as [msg|] eqn:Hr.
  { left. eexists _, _. split; [by eapply predict_malformed|by right]. }
  destruct (decide (missing_columns (REQUIRED_COLUMNS w) (frame_of (instances req)) = ∅))
    as [Hmiss|Hmiss].
  - right. exists m. split; [done|]. by apply predict_accepted.
  - left. eexists _, _. split; [by eapply predict_missing|by right].
Qed.

(** ** The serving contract *)

Lemma aligned_frame_rows required ds :
  rows (aligned_frame required ds)
  = (fun d => get d <$> columns (aligned_frame required ds)) <$> ds.
Proof. by destruct required. Qed.

Lemma mapM_lookup {A B} (f : A → option B) (l : list A) (k : list B) i :
  mapM f l = Some k → k !! i = l !! i ≫= f.
Proof.
  intros Hk%mapM_Some. revert i.
  induction Hk as [|x y l k Hxy _ IH]; intros [|i]; simpl; auto.
Qed.

(** C1 (amended): a request that passes every validation step, on which
    the model answers with labels that all cast to an integer, gets a
    response with one integer per label the model returned: entry [i] is the
    cast of the model's label [i], row [i] of the frame the model saw is
    built from instance [i], and [count] is the number of labels, which is
    the number of instances when the model answers one label per row. *)
Theorem predict_one_entry_per_label req w m preds :
  model w = Some m →
  instances req ≠ [] →
  pd_reject (instances req) = None →
  missing_columns (REQUIRED_COLUMNS w) (frame_of (instances req)) = ∅ →
  model_predict m (aligned_frame (REQUIRED_COLUMNS w) (instances req)) = inr preds →
  Forall (fun p => is_Some (int p)) preds →
  ∃ resp,
    predict req w
      = (Returned resp, log_call (aligned_frame (REQUIRED_COLUMNS w) (instances req)) w)
    ∧ length (predictions resp) = length preds
    ∧ count resp = Z.of_nat (length preds)
    ∧ (∀ i, predictions resp !! i = preds !! i ≫= int)
    ∧ (∀ i, rows (aligned_frame (REQUIRED_COLUMNS w) (instances req)) !! i
            = (fun d => get d <$> columns (aligned_frame (REQUIRED_COLUMNS w) (instances req)))
                <$> instances req !! i)
    ∧ (length preds = length (rows (aligned_frame (REQUIRED_COLUMNS w) (instances req))) →
       length (predictions resp) = length (instances req)
       ∧ count resp = Z.of_nat (length (instances req))).
Proof.
  intros Hm Hi Hr Hmiss Hp Hint.
  destruct (mapM_is_Some_2 int preds) as [zs Hzs].
  { eapply Forall_impl; [exact Hint|]. done. }
  exists {| predictions := zs; count := Z.of_nat (length preds) |}.
  split_and!; simpl.
  - rewrite (predict_accepted req w m) by done. unfold answer. by rewrite Hp, Hzs.
  - by rewrite <-(length_mapM _ _ _ Hzs).
  - done.
  - intros i. by apply mapM_lookup.
  - intros i. by rewrite aligned_frame_rows at 1; rewrite list_lookup_fmap.
  - rewrite aligned_frame_rows, length_fmap. intros Hlen.
    by rewrite <-(length_mapM _ _ _ Hzs), Hlen.
Qed.

(** C2 (amended): on a non-empty batch taken by the frame constructor while
    the model is loaded, a required column that no instance of the batch has
    makes [predict] fail with 400, the detail listing, sorted and without
    repetition, exactly the required columns that no instance has; the
    globals and the call log are as before. *)
Theorem predict_absent_columns_rejected req w m c :
  model w = Some m →
  instances req ≠ [] →
  pd_reject (instances req) = None →
  c ∈ REQUIRED_COLUMNS w →
  (∀ d, d ∈ instances req → c ∉ keys d) →
  ∃ missing,
    predict req w
      = (Raised (HTTPException 400
                   ("Missing required columns: " +:+ Py.repr_list isprintable missing)), w)
    ∧ StronglySorted String.le missing
    ∧ NoDup missing
    ∧ (∀ c', c' ∈ missing ↔
             c' ∈ REQUIRED_COLUMNS w ∧ ∀ d, d ∈ instances req → c' ∉ keys d).
Proof.
  intros Hm Hi Hr Hc Habs.
  exists (Py.sorted (missing_columns (REQUIRED_COLUMNS w) (frame_of (instances req)))).
  split_and!.
  - apply (predict_missing req w m); [done..|].
    intros Hmiss. apply missing_columns_empty in Hmiss.
    apply Hmiss, elem_of_columns_frame_of in Hc as (d & Hd & Hk).
    by apply (Habs d).
  - apply StronglySorted_sorted.
  - apply NoDup_sorted.
  - intros c'. rewrite elem_of_sorted, elem_of_missing_columns, elem_of_columns_frame_of.
    split; intros [Hreq Hno]; (split; [done|]).
    + intros d Hd Hk. apply Hno. by exists d.
    + intros (d & Hd & Hk). by apply (Hno d).
Qed.

(** C3: while the model is not loaded, [predict] fails with 503 whatever
    the request holds, before anything else is looked at. *)
Theorem predict_unavailable_until_loaded req w :
  model w = None →
  predict req w
    = (Raised (HTTPException 503 "Model not loaded. Check /health and startup logs."), w).
Proof. apply predict_not_loaded. Qed.

(** C4 (amended): with the model loaded and a non-empty schema, a single
    valid instance may have its keys in any order and carry keys outside the
    schema: the run of [predict] is the same, and the model sees the schema's
    columns, in the schema's order, and nothing else. *)
Theorem predict_blind_to_key_order_and_extras w m d d' extra :
  model w = Some m →
  REQUIRED_COLUMNS w ≠ [] →
  (∀ c, c ∈ REQUIRED_COLUMNS w → c ∈ keys d) →
  NoDup (keys d') →
  d' ≡ₚ d ++ extra →
  (∀ k, k ∈ keys extra → k ∉ REQUIRED_COLUMNS w) →
  pd_reject [d] = None →
  pd_reject [d'] = None →
  predict {| instances := [d'] |} w = predict {| instances := [d] |} w
  ∧ predict_calls (snd (predict {| instances := [d'] |} w))
    = predict_calls w
        ++ [{| columns := REQUIRED_COLUMNS w; rows := [get d <$> REQUIRED_COLUMNS w] |}].
Proof.
  intros Hm Hne Hvalid Hnd Hperm Hextra Hr Hr'.
  assert (aligned_frame (REQUIRED_COLUMNS w) [d']
          = {| columns := REQUIRED_COLUMNS w; rows := [get d <$> REQUIRED_COLUMNS w] |})
    as Hd'.
  { destruct (REQUIRED_COLUMNS w) as [|c cols] eqn:Hreq; [done|].
    unfold aligned_frame. f_equal.
    change ([get d' <$> c :: cols] = [get d <$> c :: cols]). f_equal.
    apply Forall_fmap_ext, Forall_forall. intros k Hk.
    apply (get_perm_extra d d' extra); [done..|].
    intros Hin. by apply (Hextra k). }
  assert (aligned_frame (REQUIRED_COLUMNS w) [d]
          = {| columns := REQUIRED_COLUMNS w; rows := [get d <$> REQUIRED_COLUMNS w] |})
    as Hd.
  { by destruct (REQUIRED_COLUMNS w). }
  rewrite (predict_accepted {| instances := [d'] |} w m); [|done..|].
  - rewrite (predict_accepted {| instances := [d] |} w m); [|done..|].
    + simpl. by rewrite Hd, Hd'.
    + apply missing_columns_empty. intros c Hc.
      apply elem_of_columns_frame_of. exists d. split; [by left|by apply Hvalid].
  - apply missing_columns_empty. intros c Hc.
    apply elem_of_columns_frame_of. exists d'. split; [by left|].
    unfold keys. rewrite Hperm, fmap_app. apply elem_of_app. left. by apply Hvalid.
Qed.

(** C5: while the model is loaded, an empty batch fails with 400 "No
    instances provided"; the globals and the call log are as before, so the
    model was not called. *)
Theorem predict_empty_batch_rejected req w m :
  model w = Some m →
  instances req = [] →
  predict req w = (Raised (HTTPException 400 "No instances provided"), w).
Proof. apply predict_no_instances. Qed.

(** C6: when a request gets as far as the model, on frame [X], and the model
    raises there, [predict] fails with 500 carrying the model's message; [X]
    is the only call made. *)
Theorem predict_inference_error_surfaced_once req w m X later msg :
  model w = Some m →
  predict_calls (snd (predict req w)) = predict_calls w ++ X :: later →
  model_predict m X = inl msg →
  fst (predict req w) = Raised (HTTPException 500 ("Prediction failed: " +:+ msg))
  ∧ later = []
  ∧ X = aligned_frame (REQUIRED_COLUMNS w) (instances req).
Proof.
  intros Hm Hcalls Hp.
  destruct (predict_cases req w) as [(code & detail & Hrun & _)|(m' & Hm' & Hrun)];
    rewrite Hrun in Hcalls |- *; simpl in *.
  - apply (f_equal length) in Hcalls. rewrite length_app in Hcalls. simpl in Hcalls. lia.
  - apply app_inv_head in Hcalls. injection Hcalls as <- <-.
    assert (m' = m) as -> by congruence.
    unfold answer. by rewrite Hp.
Qed.

(** C7: whenever [predict] ends in a validation error (503 or 400), the
    globals and the call log are as before: the model was not called. *)
Theorem predict_validation_precedes_model req w code detail :
  fst (predict req w) = Raised (HTTPException code detail) →
  code = 503 ∨ code = 400 →
  snd (predict req w) = w.
Proof.
  intros Hout Hcode.
  destruct (predict_cases req w) as [(code' & detail' & Hrun & _)|(m & Hm & Hrun)];
    rewrite Hrun in Hout |- *; simpl in *; [done|].
  exfalso. unfold answer in Hout.
  destruct (model_predict m _) as [msg|preds].
  - injection Hout as <- _. by destruct Hcode.
  - by destruct (mapM int preds).
Qed.

(** C8: a start on a missing or unreadable artifact returns normally with
    [model] at [None], and [health] then answers "not_ready" with
    [model_loaded] false; a start that loads the artifact leaves [model] set,
    and [health] then answers "healthy" with [model_loaded] true. *)
Theorem startup_event_then_health w :
  (∀ fs, fs = Absent ∨ (∃ err, fs = Corrupt err) →
     fst (startup_event fs w) = Returned tt
     ∧ model (snd (startup_event fs w)) = None
     ∧ health (snd (startup_event fs w))
       = (Returned {| status := "not_ready"; model_loaded := false;
                      model_path := MODEL_PATH;
                      hint := Some "Model did not load. Check terminal logs printed at startup." |},
          snd (startup_event fs w)))
  ∧ (∀ m, (∀ err, feature_names_in_ m ≠ AttrNotIterable err) →
     fst (startup_event (Pickled m) w) = Returned tt
     ∧ model (snd (startup_event (Pickled m) w)) = Some m
     ∧ health (snd (startup_event (Pickled m) w))
       = (Returned {| status := "healthy"; model_loaded := true;
                      model_path := MODEL_PATH; hint := None |},
          snd (startup_event (Pickled m) w))).
Proof.
  split.
  - intros fs [->|[err ->]]; by split_and!.
  - intros m Hnames.
    unfold startup_event, health, try_except, list_feature_names. simpl.
    unfold mbind, Handler_bind, bind. simpl.
    destruct (feature_names_in_ m) as [|names|err] eqn:Hf; simpl; [done..|].
    by destruct (Hnames err).
Qed.

(** C9: with the model loaded and an empty [REQUIRED_COLUMNS], a non-empty
    batch taken by the frame constructor goes to the model as the frame
    [pd.DataFrame] built: no missing-column error, no selection; every key of
    every instance is a column, and a single instance gives its keys in its
    own order. *)
Theorem predict_without_schema_forwards_frame req w m :
  model w = Some m →
  REQUIRED_COLUMNS w = [] →
  instances req ≠ [] →
  pd_reject (instances req) = None →
  predict req w
    = (answer (model_predict m (frame_of (instances req))),
       log_call (frame_of (instances req)) w)
  ∧ (∀ detail, fst (predict req w) ≠ Raised (HTTPException 400 detail))
  ∧ (∀ d k, d ∈ instances req → k ∈ keys d → k ∈ columns (frame_of (instances req)))
  ∧ (∀ d, instances req = [d] → NoDup (keys d) →
          columns (frame_of (instances req)) = keys d).
Proof.
  intros Hm Hreq Hi Hr.
  assert (predict req w
          = (answer (model_predict m (frame_of (instances req))),
             log_call (frame_of (instances req)) w)) as Hrun.
  { rewrite (predict_accepted req w m); [by rewrite Hreq|done..|].
    rewrite Hreq. by apply missing_columns_empty, list_subseteq_nil. }
  split_and!; [done| | |].
  - intros detail. rewrite Hrun. simpl. unfold answer.
    destruct (model_predict m _) as [msg|preds]; [done|].
    by destruct (mapM int preds).
  - intros d k Hd Hk. apply elem_of_columns_frame_of. by exists d.
  - intros d -> Hnd. by apply columns_frame_of_single.
Qed.

(** C10: [predict], [health] and [root] leave [model] and
    [REQUIRED_COLUMNS] as they found them, however they end; a start that
    loads an artifact with feature names writes both. *)
Theorem routes_leave_globals_alone req w :
  (model (snd (predict req w)) = model w
   ∧ REQUIRED_COLUMNS (snd (predict req w)) = REQUIRED_COLUMNS w)
  ∧ snd (health w) = w
  ∧ snd (root w) = w
  ∧ (∀ m names, feature_names_in_ m = AttrNames names →
       model (snd (startup_event (Pickled m) w)) = Some m
       ∧ REQUIRED_COLUMNS (snd (startup_event (Pickled m) w)) = names).
Proof.
  split_and!.
  - destruct (predict_cases req w) as [(code & detail & -> & _)|(m & _ & ->)]; done.
  - destruct (predict_cases req w) as [(code & detail & -> & _)|(m & _ & ->)]; done.
  - unfold health, mbind, Handler_bind, bind, read_model. simpl. by destruct (model w).
  - done.
  - intros m names Hf.
    unfold startup_event, try_except, list_feature_names,
      mbind, Handler_bind, bind. simpl.
    by rewrite Hf.
Qed.

End Contract.

(** ** The contract on the concrete service *)

Section Instances.

Import Scenario.

(** Two requests that pass every validation step and on which the model
    answers: three labels for two instances give a response of three
    entries with [count] 3, and a NaN label gives no response at all. *)
Lemma labels_decide_count_and_cast :
  (model Unruly.ready_three = Some Unruly.model_three
   ∧ instances batch_ok ≠ []
   ∧ pd_reject (instances batch_ok) = None
   ∧ missing_columns (REQUIRED_COLUMNS Unruly.ready_three)
       (frame_of (instances batch_ok)) = ∅
   ∧ model_predict Unruly.model_three
       (aligned_frame (REQUIRED_COLUMNS Unruly.ready_three) (instances batch_ok))
     = inr [1; 0; 1]
   ∧ length (instances batch_ok) = 2%nat
   ∧ fst (predict batch_ok Unruly.ready_three)
     = Returned {| predictions := [1; 0; 1]; count := 3 |})
  ∧ (model Unruly.ready_nan = Some Unruly.model_nan
     ∧ missing_columns (REQUIRED_COLUMNS Unruly.ready_nan)
         (frame_of (instances batch_ok)) = ∅
     ∧ model_predict Unruly.model_nan
         (aligned_frame (REQUIRED_COLUMNS Unruly.ready_nan) (instances batch_ok))
       = inr [None; None]
     ∧ ∀ resp, fst (predict (rt := Unruly.runtime_nan) batch_ok Unruly.ready_nan)
               ≠ Returned resp).
Proof.
  split; split_and!; try reflexivity; try discriminate; by vm_compute.
Qed.

Lemma predict_one_entry_per_label_witness :
  ∃ resp,
    predict batch_ok ready
      = (Returned resp,
         log_call (aligned_frame (REQUIRED_COLUMNS ready) (instances batch_ok)) ready)
    ∧ length (predictions resp) = length [1; 0]
    ∧ count resp = Z.of_nat (length [1; 0])
    ∧ (∀ i, predictions resp !! i = [1; 0] !! i ≫= int)
    ∧ (∀ i, rows (aligned_frame (REQUIRED_COLUMNS ready) (instances batch_ok)) !! i
            = (fun d => get d <$> columns (aligned_frame (REQUIRED_COLUMNS ready)
                                             (instances batch_ok)))
                <$> instances batch_ok !! i)
    ∧ (length [1; 0]
       = length (rows (aligned_frame (REQUIRED_COLUMNS ready) (instances batch_ok))) →
       length (predictions resp) = length (instances batch_ok)
       ∧ count resp = Z.of_nat (length (instances batch_ok))).
Proof.
  apply (predict_one_entry_per_label batch_ok ready model_ab [1; 0]).
  - reflexivity.
  - discriminate.
  - reflexivity.
  - vm_compute. reflexivity.
  - reflexivity.
  - repeat constructor; by eexists.
Defined.

(** The ragged batch: its second instance has no [b], the first one has, so
    [b] is a column of the frame; the batch is not refused, the model is
    called on a row holding NaN, and what comes back is the model's own
    failure. *)
Lemma ragged_batch_reaches_model :
  model ready = Some model_ab
  ∧ instances batch_ragged ≠ []
  ∧ [("a", 1)] ∈ instances batch_ragged
  ∧ "b" ∈ REQUIRED_COLUMNS ready
  ∧ ("b" ∉ keys [("a", 1)])
  ∧ fst (predict batch_ragged ready)
    = Raised (HTTPException 500 "Prediction failed: Input rejected by the estimator.")
  ∧ predict_calls (snd (predict batch_ragged ready))
    = [{| columns := ["a"; "b"]; rows := [[Some 5; Some 2]; [Some 1; None]] |}].
Proof.
  split_and!; try reflexivity.
  - discriminate.
  - apply (bool_decide_unpack _). reflexivity.
  - apply (bool_decide_unpack _). reflexivity.
  - apply (bool_decide_unpack _). reflexivity.
Qed.

Lemma predict_absent_columns_rejected_witness :
  ∃ missing,
    predict batch_no_b ready
      = (Raised (HTTPException 400
                   ("Missing required columns: " +:+ Py.repr_list isprintable missing)), ready)
    ∧ StronglySorted String.le missing
    ∧ NoDup missing
    ∧ (∀ c', c' ∈ missing ↔
             c' ∈ REQUIRED_COLUMNS ready ∧ ∀ d, d ∈ instances batch_no_b → c' ∉ keys d).
Proof.
  apply (predict_absent_columns_rejected batch_no_b ready model_ab "b").
  - reflexivity.
  - discriminate.
  - reflexivity.
  - apply (bool_decide_unpack _). reflexivity.
  - intros d Hd. apply list_elem_of_singleton in Hd as ->.
    apply (bool_decide_unpack _). reflexivity.
Defined.

Lemma predict_unavailable_until_loaded_witness :
  predict batch_ok initial
    = (Raised (HTTPException 503 "Model not loaded. Check /health and startup logs."),
       initial).
Proof. apply (predict_unavailable_until_loaded batch_ok initial). reflexivity. Defined.

(** Without a schema the model sees the keys as they came: swapping two
    keys flips the label, and a key the model was not fitted on reaches it. *)
Lemma schema_less_predict_sees_keys :
  model ready_bare = Some model_bare
  ∧ [("b", 2); ("a", 5)] ≡ₚ [("a", 5); ("b", 2)]
  ∧ fst (predict {| instances := [[("a", 5); ("b", 2)]] |} ready_bare)
    = Returned {| predictions := [1]; count := 1 |}
  ∧ fst (predict {| instances := [[("b", 2); ("a", 5)]] |} ready_bare)
    = Returned {| predictions := [0]; count := 1 |}
  ∧ predict_calls
      (snd (predict {| instances := [[("a", 5); ("b", 2); ("id", 7)]] |} ready_bare))
    = [{| columns := ["a"; "b"; "id"]; rows := [[Some 5; Some 2; Some 7]] |}].
Proof.
  split_and!; try reflexivity. apply Permutation_swap.
Qed.

Lemma predict_blind_to_key_order_and_extras_witness :
  predict {| instances := [[("id", 7); ("b", 2); ("a", 5)]] |} ready
  = predict {| instances := [[("a", 5); ("b", 2)]] |} ready
  ∧ predict_calls (snd (predict {| instances := [[("id", 7); ("b", 2); ("a", 5)]] |} ready))
    = predict_calls ready
        ++ [{| columns := REQUIRED_COLUMNS ready;
               rows := [get [("a", 5); ("b", 2)] <$> REQUIRED_COLUMNS ready] |}].
Proof.
  apply (predict_blind_to_key_order_and_extras ready model_ab
           [("a", 5); ("b", 2)] [("id", 7); ("b", 2); ("a", 5)] [("id", 7)]).
  - reflexivity.
  - discriminate.
  - intros c Hc. apply (bool_decide_unpack _).
    revert c Hc. apply Forall_forall. apply (bool_decide_unpack _). reflexivity.
  - apply (bool_decide_unpack _). reflexivity.
  - apply (bool_decide_unpack _). reflexivity.
  - apply Forall_forall. apply (bool_decide_unpack _). reflexivity.
  - reflexivity.
  - reflexivity.
Defined.

Lemma predict_empty_batch_rejected_witness :
  predict {| instances := [] |} ready
  = (Raised (HTTPException 400 "No instances provided"), ready).
Proof.
  apply (predict_empty_batch_rejected {| instances := [] |} ready model_ab); reflexivity.
Defined.

Lemma predict_inference_error_surfaced_once_witness :
  fst (predict batch_ragged ready)
  = Raised (HTTPException 500 "Prediction failed: Input rejected by the estimator.")
  ∧ @nil (@DataFrame Z) = []
  ∧ {| columns := ["a"; "b"]; rows := [[Some 5; Some 2]; [Some 1; None]] |}
    = aligned_frame (REQUIRED_COLUMNS ready) (instances batch_ragged).
Proof.
  apply (predict_inference_error_surfaced_once batch_ragged ready model_ab
           {| columns := ["a"; "b"]; rows := [[Some 5; Some 2]; [Some 1; None]] |}
           [] "Input rejected by the estimator."); reflexivity.
Defined.

Lemma predict_validation_precedes_model_witness :
  snd (predict batch_no_b ready) = ready.
Proof.
  apply (predict_validation_precedes_model batch_no_b ready 400
           "Missing required columns: ['b']").
  - reflexivity.
  - right. reflexivity.
Defined.

Lemma predict_without_schema_forwards_frame_witness :
  predict batch_ok ready_bare
  = (answer (model_predict model_bare (frame_of (instances batch_ok))),
     log_call (frame_of (instances batch_ok)) ready_bare)
  ∧ (∀ detail, fst (predict batch_ok ready_bare) ≠ Raised (HTTPException 400 detail))
  ∧ (∀ d k, d ∈ instances batch_ok → k ∈ keys d →
            k ∈ columns (frame_of (instances batch_ok)))
  ∧ (∀ d, instances batch_ok = [d] → NoDup (keys d) →
          columns (frame_of (instances batch_ok)) = keys d).
Proof.
  apply (predict_without_schema_forwards_frame batch_ok ready_bare model_bare).
  - reflexivity.
  - reflexivity.
  - discriminate.
  - reflexivity.
Defined.

(** The scenarios the service is documented with. *)
Example scenario_two_instances :
  fst (predict batch_ok ready) = Returned {| predictions := [1; 0]; count := 2 |}.
Proof. reflexivity. Qed.

Example scenario_missing_b :
  fst (predict batch_no_b ready)
  = Raised (HTTPException 400 "Missing required columns: ['b']").
Proof. reflexivity. Qed.

Example scenario_columns_by_first_appearance :
  frame_of [[("b", 5); ("a", 2)]; [("c", 1); ("a", 1)]]
  = {| columns := ["b"; "a"; "c"];
       rows := [[Some 5; Some 2; None]; [None; Some 1; Some 1]] |}.
Proof. reflexivity. Qed.

Example scenario_sorted_by_code_point :
  Py.sorted (list_to_set ["zeta"; "b"; "Alpha"; "b"; "a b"]) = ["Alpha"; "a b"; "b"; "zeta"].
Proof. reflexivity. Qed.

Lemma startup_event_then_health_witness :
  fst (health (snd (startup_event Absent initial)))
  = Returned {| status := "not_ready"; model_loaded := false;
                model_path := MODEL_PATH;
                hint := Some "Model did not load. Check terminal logs printed at startup." |}
  ∧ fst (health (snd (startup_event (Pickled model_ab) initial)))
    = Returned {| status := "healthy"; model_loaded := true;
                  model_path := MODEL_PATH; hint := None |}.
Proof.
  split.
  - destruct (proj1 (startup_event_then_health initial) Absent) as (_ & _ & ->);
      [by left|reflexivity].
  - destruct (proj2 (startup_event_then_health initial) model_ab) as (_ & _ & ->);
      [discriminate|reflexivity].
Defined.

Lemma routes_leave_globals_alone_witness :
  model (snd (predict batch_ok ready)) = model ready
  ∧ REQUIRED_COLUMNS (snd (predict batch_ok ready)) = REQUIRED_COLUMNS ready.
Proof. apply (routes_leave_globals_alone batch_ok ready). Defined.

End Instances.

(** ** More on the service *)

Section ServiceFacts.

Context {value raw : Type} {rt : Runtime value raw}.

#[local] Abbreviation World := (@World value raw).
#[local] Abbreviation Model := (@Model value raw).
#[local] Abbreviation DataFrame := (@DataFrame value).
#[local] Abbreviation Instance := (@Instance value).
#[local] Abbreviation PredictRequest := (@PredictRequest value).
#[local] Abbreviation Artifact := (@Artifact value raw).

Implicit Types (w : World) (m : Model) (X : DataFrame) (fs : Artifact).
Implicit Types (req : PredictRequest) (ds : list Instance) (d : Instance).

Lemma alike_rows required ds ds' :
  Forall2 (alike required) ds ds' →
  (fun d => get d <$> required) <$> ds = (fun d => get d <$> required) <$> ds'.
Proof.
  induction 1 as [|d d' ds ds' Hd _ IH]; [done|].
  rewrite !fmap_cons. f_equal; [|done].
  by apply Forall_fmap_ext, Forall_forall.
Qed.

Lemma alike_has_key required ds ds' c :
  Forall2 (alike required) ds ds' → c ∈ required →
  (∃ d, d ∈ ds ∧ c ∈ keys d) → ∃ d', d' ∈ ds' ∧ c ∈ keys d'.
Proof.
  intros Hall Hc. induction Hall as [|d d' ds ds' Hd _ IH].
  - intros (d & []%elem_of_nil & _).
  - intros (d0 & [->|Hin]%elem_of_cons & Hk).
    + exists d'. split; [by left|].
      apply get_is_Some. rewrite <-(Hd c Hc). by apply get_is_Some.
    + destruct IH as (d1 & ? & ?); [by exists d0|].
      exists d1. split; [by right|done].
Qed.

Lemma alike_sym required ds ds' :
  Forall2 (alike required) ds ds' → Forall2 (alike required) ds' ds.
Proof.
  intros Hall. apply Forall2_flip. eapply Forall2_impl; [exact Hall|].
  intros d d' Hd c Hc. symmetry. by apply Hd.
Qed.

Lemma alike_missing required ds ds' :
  Forall2 (alike required) ds ds' →
  missing_columns required (frame_of ds) = missing_columns required (frame_of ds').
Proof.
  intros Hall. apply set_eq. intros c.
  rewrite !elem_of_missing_columns, !elem_of_columns_frame_of.
  split; intros [Hc Hno]; (split; [done|]); intros Hsome; apply Hno.
  - by apply (alike_has_key required ds' ds c); [apply alike_sym|..].
  - by apply (alike_has_key required ds ds' c).
Qed.

(** X2: every run of [predict] ends in a response, in an [HTTPException]
    with status 503, 400 or 500, or in the exception of a failed [int] cast
    on a label the model returned; in particular selecting the schema's
    columns never raises. *)
Theorem predict_outcome_taxonomy req w :
  (∃ resp, fst (predict req w) = Returned resp)
  ∨ (∃ code detail, fst (predict req w) = Raised (HTTPException code detail)
       ∧ (code = 503 ∨ code = 400 ∨ code = 500))
  ∨ (∃ m preds msg,
       model w = Some m
       ∧ model_predict m (aligned_frame (REQUIRED_COLUMNS w) (instances req)) = inr preds
       ∧ Exists (fun p => int p = None) preds
       ∧ fst (predict req w) = Raised (Exception msg)).
Proof.
  destruct (predict_cases req w) as [(code & detail & -> & Hc)|(m & Hm & ->)]; simpl.
  - right; left. exists code, detail. split; [done|]. destruct Hc; auto.
  - unfold answer.
    destruct (model_predict m _) as [msg|preds] eqn:Hp.
    + right; left. eexists _, _. split; [done|]. auto.
    + destruct (mapM int preds) as [zs|] eqn:Hz.
      * left. by eexists.
      * right; right. exists m, preds, "int". split_and!; [done..| |done].
        by apply mapM_None.
Qed.

(** X3: a run of [predict] calls the model at most once, and not at all
    exactly when it ends in a 503 or a 400. *)
Theorem predict_calls_model_unless_refused req w :
  (length (predict_calls (snd (predict req w))) ≤ length (predict_calls w) + 1)%nat
  ∧ (predict_calls (snd (predict req w)) = predict_calls w ↔
     ∃ code detail, fst (predict req w) = Raised (HTTPException code detail)
                    ∧ (code = 503 ∨ code = 400)).
Proof.
  destruct (predict_cases req w) as [(code & detail & -> & Hc)|(m & Hm & ->)]; simpl.
  - split; [lia|]. split; [|done]. intros _. by exists code, detail.
  - rewrite length_app. simpl. split; [lia|]. split.
    + intros Heq. apply (f_equal length) in Heq. rewrite length_app in Heq.
      simpl in Heq. lia.
    + intros (code & detail & Hout & Hc). exfalso. unfold answer in Hout.
      destruct (model_predict m _) as [msg|preds].
      * injection Hout as <- _. by destruct Hc.
      * by destruct (mapM int preds).
Qed.

(** X4: in every response [predict] returns, [count] is the length of
    [predictions], whatever number of labels the model gave back. *)
Theorem predict_count_is_length req w resp :
  fst (predict req w) = Returned resp →
  count resp = Z.of_nat (length (predictions resp)).
Proof.
  destruct (predict_cases req w) as [(code & detail & -> & Hc)|(m & Hm & ->)]; simpl;
    [done|].
  unfold answer. destruct (model_predict m _) as [msg|preds]; [done|].
  destruct (mapM int preds) as [zs|] eqn:Hz; [|done].
  intros [= <-]. simpl. by rewrite (length_mapM _ _ _ Hz).
Qed.

(** X5: when an accepted batch gets labels from the model and [int] raises
    on one of them, [predict] ends in that exception, not in an
    [HTTPException] and not in a response; the model has been called. *)
Theorem predict_uncastable_label_escapes req w m preds :
  model w = Some m →
  instances req ≠ [] →
  pd_reject (instances req) = None →
  missing_columns (REQUIRED_COLUMNS w) (frame_of (instances req)) = ∅ →
  model_predict m (aligned_frame (REQUIRED_COLUMNS w) (instances req)) = inr preds →
  Exists (fun p => int p = None) preds →
  ∃ msg,
    predict req w
    = (Raised (Exception msg),
       log_call (aligned_frame (REQUIRED_COLUMNS w) (instances req)) w).
Proof.
  intros Hm Hi Hr Hmiss Hp Hbad. exists "int".
  rewrite (predict_accepted req w m) by done.
  unfold answer. rewrite Hp. by rewrite (mapM_None_2 int preds Hbad).
Qed.

(** X6: with a non-empty schema, [predict] looks at a batch only through
    the cells under the schema's columns: two batches taken by the frame
    constructor whose instances read alike there, one by one, get the same
    run, be it a response or an error. *)
Theorem predict_reads_required_cells_only w ds ds' :
  REQUIRED_COLUMNS w ≠ [] →
  Forall2 (alike (REQUIRED_COLUMNS w)) ds ds' →
  pd_reject ds = None →
  pd_reject ds' = None →
  predict {| instances := ds |} w = predict {| instances := ds' |} w.
Proof.
  intros Hne Hall Hr Hr'.
  destruct (model w) as [m|] eqn:Hm; [|by rewrite !predict_not_loaded].
  destruct Hall as [|d d' ds ds' Hd Hall].
  { by rewrite !(predict_no_instances _ w m). }
  assert (Forall2 (alike (REQUIRED_COLUMNS w)) (d :: ds) (d' :: ds')) as Hall'
    by by constructor.
  pose proof (alike_missing _ _ _ Hall') as Hmiss.
  destruct (decide (missing_columns (REQUIRED_COLUMNS w) (frame_of (d :: ds)) = ∅))
    as [He|He].
  - rewrite (predict_accepted {| instances := d :: ds |} w m) by done.
    rewrite (predict_accepted {| instances := d' :: ds' |} w m);
      [|done..|simpl; by rewrite <-Hmiss].
    assert (aligned_frame (REQUIRED_COLUMNS w) (d :: ds)
            = aligned_frame (REQUIRED_COLUMNS w) (d' :: ds')) as Hfr.
    { destruct (REQUIRED_COLUMNS w) as [|c cols] eqn:Hreq; [done|].
      unfold aligned_frame. f_equal. by apply alike_rows. }
    simpl. by rewrite Hfr.
  - rewrite (predict_missing {| instances := d :: ds |} w m) by done.
    rewrite (predict_missing {| instances := d' :: ds' |} w m);
      [|done..|simpl; by rewrite <-Hmiss].
    simpl. by rewrite Hmiss.
Qed.

(** X7: a batch in which every schema column occurs in some instance is
    sent to the model even when instance [i] lacks the column at position
    [j]: the model is called once, on a frame whose cell [(i, j)] is NaN. *)
Theorem predict_forwards_nan_for_absent_key req w m i j d c :
  model w = Some m →
  instances req ≠ [] →
  pd_reject (instances req) = None →
  missing_columns (REQUIRED_COLUMNS w) (frame_of (instances req)) = ∅ →
  instances req !! i = Some d →
  REQUIRED_COLUMNS w !! j = Some c →
  c ∉ keys d →
  ∃ X row,
    predict_calls (snd (predict req w)) = predict_calls w ++ [X]
    ∧ columns X = REQUIRED_COLUMNS w
    ∧ rows X !! i = Some row
    ∧ row !! j = Some None.
Proof.
  intros Hm Hi Hr Hmiss Hd Hc Hk.
  exists (aligned_frame (REQUIRED_COLUMNS w) (instances req)),
    (get d <$> REQUIRED_COLUMNS w).
  rewrite (predict_accepted req w m) by done. simpl.
  destruct (REQUIRED_COLUMNS w) as [|c0 cols] eqn:Hreq; [done|].
  unfold aligned_frame. simpl columns. simpl rows.
  split_and!; [done..| |].
  - by rewrite list_lookup_fmap, Hd.
  - rewrite list_lookup_fmap, Hc. simpl. f_equal. by apply get_None.
Qed.

(** X8: a start that fails, on a missing file, on a file [joblib] cannot
    read, or on feature names that cannot be listed, returns normally and
    leaves [model] at [None] and [REQUIRED_COLUMNS] as it was. *)
Theorem startup_failure_keeps_columns fs w :
  fs = Absent
  ∨ (∃ err, fs = Corrupt err)
  ∨ (∃ m err, fs = Pickled m ∧ feature_names_in_ m = AttrNotIterable err) →
  startup_event fs w
  = (Returned tt,
     {| model := None; REQUIRED_COLUMNS := REQUIRED_COLUMNS w;
        predict_calls := predict_calls w |}).
Proof.
  intros [->|[[err ->]|(m & err & -> & Hf)]]; [done..|].
  unfold startup_event, try_except, list_feature_names, mbind, Handler_bind, bind.
  simpl. by rewrite Hf.
Qed.

(** X9: [startup_event] never raises and never calls the model; it leaves
    a model loaded exactly when the file unpickles and its feature names, if
    it has any, can be listed. *)
Theorem startup_event_never_raises fs w :
  fst (startup_event fs w) = Returned tt
  ∧ predict_calls (snd (startup_event fs w)) = predict_calls w
  ∧ (is_Some (model (snd (startup_event fs w))) ↔
     ∃ m, fs = Pickled m ∧ ∀ err, feature_names_in_ m ≠ AttrNotIterable err).
Proof.
  destruct fs as [|err|m].
  - split_and!; [done..|]. split; [by intros []|by intros (? & ? & _)].
  - split_and!; [done..|]. split; [by intros []|by intros (? & ? & _)].
  - unfold startup_event, try_except, list_feature_names, mbind, Handler_bind, bind.
    simpl. destruct (feature_names_in_ m) as [|names|err] eqn:Hf; simpl.
    + split_and!; [done..|]. split; [|done]. intros _. exists m. split; [done|].
      intros err. by rewrite Hf.
    + split_and!; [done..|]. split; [|done]. intros _. exists m. split; [done|].
      intros err. by rewrite Hf.
    + split_and!; [done..|]. split; [by intros []|].
      intros (m' & [= <-] & Hno). destruct (Hno err). done.
Qed.

(** X10: starting twice on the same artifact leaves the globals as starting
    once does. *)
Theorem startup_event_idempotent fs w :
  snd (startup_event fs (snd (startup_event fs w))) = snd (startup_event fs w).
Proof.
  destruct fs as [|err|m]; [done..|].
  unfold startup_event, try_except, list_feature_names, mbind, Handler_bind, bind.
  simpl. by destruct (feature_names_in_ m).
Qed.

(** X11: [health], [root] and [predict] read the same readiness: [health]
    and [root] both return, with the same [model_loaded]; [health] says
    "healthy" exactly when it is true, and [predict] answers 503 exactly
    when it is false; [root] lists [REQUIRED_COLUMNS]. *)
Theorem routes_agree_on_readiness req w :
  ∃ h r,
    fst (health w) = Returned h
    ∧ fst (root w) = Returned r
    ∧ model_loaded h = root_model_loaded r
    ∧ required_columns r = REQUIRED_COLUMNS w
    ∧ (status h = "healthy" ↔ model_loaded h = true)
    ∧ (model_loaded h = false ↔
       ∃ detail, fst (predict req w) = Raised (HTTPException 503 detail)).
Proof.
  destruct (model w) as [m|] eqn:Hm.
  - eexists _, _. unfold health, root, mbind, Handler_bind, bind, read_model,
      read_REQUIRED_COLUMNS. simpl. rewrite Hm. simpl.
    split_and!; try done.
    split; [done|]. intros (detail & Hout). exfalso.
    destruct (predict_cases req w) as [(code & detail' & Hrun & _)|(m' & _ & Hrun)];
      rewrite Hrun in Hout; simpl in Hout.
    + injection Hout as -> ->.
      destruct (decide (instances req = [])) as [Hi|Hi].
      * rewrite (predict_no_instances req w m) in Hrun by done. done.
      * destruct (pd_reject (instances req)) as [msg|] eqn:Hr.
        -- rewrite (predict_malformed req w m msg) in Hrun by done. done.
        -- destruct (decide (missing_columns (REQUIRED_COLUMNS w)
                               (frame_of (instances req)) = ∅)) as [He|He].
           ++ rewrite (predict_accepted req w m) in Hrun by done.
              apply (f_equal snd) in Hrun. simpl in Hrun.
              apply (f_equal predict_calls), (f_equal length) in Hrun.
              simpl in Hrun. rewrite length_app in Hrun. simpl in Hrun. lia.
           ++ rewrite (predict_missing req w m) in Hrun by done. done.
    + unfold answer in Hout. destruct (model_predict m' _) as [msg|preds]; [done|].
      by destruct (mapM int preds).
  - eexists _, _. unfold health, root, mbind, Handler_bind, bind, read_model,
      read_REQUIRED_COLUMNS. simpl. rewrite Hm. simpl.
    split_and!; try done.
    split; [|done]. intros _. eexists. by rewrite predict_not_loaded.
Qed.

(** X19: the frame an accepted batch is sent to the model as is
    rectangular: one row per instance, and in every row one cell per
    column. *)
Theorem forwarded_frame_rectangular req w m :
  model w = Some m →
  instances req ≠ [] →
  pd_reject (instances req) = None →
  missing_columns (REQUIRED_COLUMNS w) (frame_of (instances req)) = ∅ →
  ∃ X,
    predict_calls (snd (predict req w)) = predict_calls w ++ [X]
    ∧ length (rows X) = length (instances req)
    ∧ Forall (fun row => length row = length (columns X)) (rows X).
Proof.
  intros Hm Hi Hr Hmiss.
  exists (aligned_frame (REQUIRED_COLUMNS w) (instances req)).
  rewrite (predict_accepted req w m) by done. simpl.
  rewrite aligned_frame_rows. split_and!; [done|by rewrite length_fmap|].
  apply Forall_fmap, Forall_forall. intros d _. simpl. by rewrite length_fmap.
Qed.

End ServiceFacts.

(** ** The text of the missing-column error *)

Lemma repr_char_plain c :
  plain_char c = true → Py.repr_char Py.squote c = String c "".
Proof.
  destruct c as [[] [] [] [] [] [] [] []]; vm_compute; congruence.
Qed.

Lemma plain_no_squote s : plain s = true → Py.contains Py.squote s = false.
Proof.
  induction s as [|c s IH]; simpl; [done|].
  intros [Hc Hs]%andb_true_iff. rewrite (IH Hs).
  unfold plain_char in Hc. apply andb_true_iff in Hc as [Hc _].
  apply andb_true_iff in Hc as [_ Hq]. by destruct (Ascii.eqb c Py.squote).
Qed.

Lemma plain_char_ascii c : plain_char c = true → (N_of_ascii c <? 128)%N = true.
Proof.
  destruct c as [[] [] [] [] [] [] [] []]; vm_compute; congruence.
Qed.

Lemma repr_body_plain printable s :
  plain s = true → Py.repr_body printable Py.squote s = s.
Proof.
  induction s as [|c s IH]; simpl; [done|].
  intros [Hc Hs]%andb_true_iff.
  by rewrite (plain_char_ascii c Hc), (repr_char_plain c Hc), (IH Hs).
Qed.

Lemma repr_plain printable s :
  plain s = true → Py.repr printable s = "'" +:+ s +:+ "'".
Proof.
  intros Hs. unfold Py.repr. rewrite (plain_no_squote s Hs). simpl.
  by rewrite (repr_body_plain printable s Hs).
Qed.

Section Detail.

Context {value raw : Type} {rt : Runtime value raw}.

(** X12: when the schema's names are plain text (printable ASCII without
    quote or backslash), the detail of the missing-column error is the
    bracketed list of the missing names, each between single quotes,
    separated by a comma and a space, in ascending order. *)
Theorem predict_missing_detail_plain (req : @PredictRequest value)
    (w : @World value raw) (m : @Model value raw) :
  model w = Some m →
  instances req ≠ [] →
  pd_reject (instances req) = None →
  Forall (fun c => plain c = true) (REQUIRED_COLUMNS w) →
  missing_columns (REQUIRED_COLUMNS w) (frame_of (instances req)) ≠ ∅ →
  fst (predict req w)
  = Raised (HTTPException 400
      ("Missing required columns: ["
         +:+ Py.join ", "
               ((fun c => "'" +:+ c +:+ "'")
                  <$> Py.sorted (missing_columns (REQUIRED_COLUMNS w)
                                   (frame_of (instances req))))
         +:+ "]")).
Proof.
  intros Hm Hi Hr Hplain Hmiss.
  rewrite (predict_missing req w m) by done. simpl.
  unfold Py.repr_list.
  set (missing := Py.sorted (missing_columns (REQUIRED_COLUMNS w)
                               (frame_of (instances req)))).
  assert (Py.repr isprintable <$> missing
          = (fun c => "'" +:+ c +:+ "'") <$> missing) as ->;
    [|reflexivity].
  apply Forall_fmap_ext, Forall_forall. intros c Hc.
  apply repr_plain.
  apply elem_of_sorted, elem_of_missing_columns in Hc as [Hc _].
  by apply (proj1 (Forall_forall _ _) Hplain).
Qed.

End Detail.

(** ** The form client *)

Section Client.

Import Streamlit.

Lemma str_int_not_a_label z :
  Py.str_int z ≠ "Malignant (cancer)" ∧ Py.str_int z ≠ "Benign (non-cancer)".
Proof.
  unfold Py.str_int. destruct (Z.to_int z) as [[]|[]]; split; discriminate.
Qed.

(** X13: on an integer prediction [label_from_pred] says "Malignant
    (cancer)" exactly for 0 and "Benign (non-cancer)" exactly for 1; any
    other integer is shown as its decimal text. *)
Theorem label_from_pred_of_int z :
  (label_from_pred (of_int z) = "Malignant (cancer)" ↔ z = 0)
  ∧ (label_from_pred (of_int z) = "Benign (non-cancer)" ↔ z = 1)
  ∧ (z ≠ 0 → z ≠ 1 → label_from_pred (of_int z) = Py.str_int z).
Proof.
  destruct (str_int_not_a_label z) as [HM HB].
  unfold label_from_pred, of_int. simpl.
  repeat case_decide; subst; split_and!; try done; split; try done; lia.
Qed.

Section Wire.

Context {value raw J : Type} {rt : Runtime value raw}.
Variable post : @PredictRequest value → Transport.
Variable json : Response → string + J.

Implicit Types (w : @World value raw) (req : @PredictRequest value).

(** X14: the form's health caption reads "healthy" whenever [/health]
    answers at all: [health] returns a body on both of its branches, so the
    status is 200 with or without a model, while [predict] on a service
    without a model answers 503. *)
Theorem health_caption_ignores_readiness w (r : Response) :
  status_code r = status_of (fst (health w)) →
  safe_get_health (Replied r) = "healthy"
  ∧ (model w = None → ∀ req, status_of (fst (predict req w)) = 503).
Proof.
  intros Hr. split.
  - unfold safe_get_health. rewrite Hr.
    unfold health, mbind, Handler_bind, bind, read_model. simpl.
    by destruct (model w).
  - intros Hm req. by rewrite predict_not_loaded.
Qed.

(** X15: [call_api] against [predict]: when [predict] raises, [call_api]
    raises "API error <status>: <body>" with status 503, 400 or 500; when
    [predict] returns, [call_api] gives what decoding the body gives. *)
Theorem call_api_mirrors_predict req w (resp : Response) :
  post req = Replied resp →
  status_code resp = status_of (fst (predict req w)) →
  (∀ e, fst (predict req w) = Raised e →
     ∃ code, (code = 503 ∨ code = 400 ∨ code = 500)
       ∧ call_api post json req
         = Raised (Exception ("API error " +:+ Py.str_int code +:+ ": " +:+ text resp)))
  ∧ (∀ body, fst (predict req w) = Returned body →
     call_api post json req
     = match json resp with
       | inl err => Raised (Exception err)
       | inr data => Returned data
       end).
Proof.
  intros Hpost Hst. unfold call_api. rewrite Hpost, Hst. split.
  - intros e He. rewrite He.
    destruct (predict_cases req w) as [(code & detail & Hrun & Hc)|(m & _ & Hrun)];
      rewrite Hrun in He; simpl in He.
    + injection He as <-. exists code. split; [destruct Hc; auto|]. simpl.
      rewrite decide_True; [done|]. by destruct Hc as [->| ->].
    + unfold answer in He. destruct (model_predict m _) as [msg|preds].
      * injection He as <-. exists 500. split; [auto|]. done.
      * destruct (mapM int preds); [done|].
        injection He as <-. exists 500. split; [auto|]. done.
  - intros body Hb. rewrite Hb. simpl. done.
Qed.

End Wire.

Section Form.

Context {value raw : Type} {rt : Runtime value raw}.
Implicit Types (w : @World value raw) (number_input : string → value).

Lemma get_tabulate (f : string → value) (l : list string) c :
  c ∈ l → get ((fun k => (k, f k)) <$> l) c = Some (f c).
Proof.
  induction l as [|k l IH]; [by intros ?%elem_of_nil|].
  intros Hin. simpl. case_decide as Hk; [by subst|].
  apply elem_of_cons in Hin as [->|Hin]; [done|]. by apply IH.
Qed.

Lemma user_input_tabulate number_input :
  user_input number_input = (fun k => (k, number_input k)) <$> FEATURES.
Proof. reflexivity. Qed.

Lemma user_input_keys number_input : keys (user_input number_input) = FEATURES.
Proof. reflexivity. Qed.

Lemma user_input_get number_input feat :
  feat ∈ FEATURES → get (user_input number_input) feat = Some (number_input feat).
Proof. intros Hf. rewrite user_input_tabulate. by apply get_tabulate. Qed.

(** X16: the dictionary the form builds has the thirty feature names as
    its keys, each once and in the order of [FEATURES], and under each of
    them the value its input widget returned. *)
Theorem user_input_holds_every_feature number_input :
  keys (user_input number_input) = FEATURES
  ∧ NoDup (keys (user_input number_input))
  ∧ length (user_input number_input) = 30%nat
  ∧ (∀ feat, feat ∈ FEATURES →
       get (user_input number_input) feat = Some (number_input feat))
  ∧ (∀ k, k ∉ FEATURES → get (user_input number_input) k = None).
Proof.
  split_and!; [apply user_input_keys| |done| |].
  - rewrite user_input_keys. apply (bool_decide_unpack _). by vm_compute.
  - apply user_input_get.
  - intros k Hn. apply get_None. by rewrite user_input_keys.
Qed.

(** X17: a loaded service whose schema names only form features never
    refuses the form's payload for a missing column: once the frame
    constructor takes it, the model is called on one row; with a non-empty
    schema that row holds the widget values under the schema's columns, in
    schema order. *)
Theorem form_payload_reaches_model w (m : @Model value raw) number_input :
  model w = Some m →
  REQUIRED_COLUMNS w ⊆ FEATURES →
  pd_reject (instances (payload number_input)) = None →
  predict (payload number_input) w
  = (answer (model_predict m
               (aligned_frame (REQUIRED_COLUMNS w) [user_input number_input])),
     log_call (aligned_frame (REQUIRED_COLUMNS w) [user_input number_input]) w)
  ∧ (REQUIRED_COLUMNS w ≠ [] →
     aligned_frame (REQUIRED_COLUMNS w) [user_input number_input]
     = {| columns := REQUIRED_COLUMNS w;
          rows := [(fun c => Some (number_input c)) <$> REQUIRED_COLUMNS w] |}).
Proof.
  intros Hm Hsub Hr.
  pose proof (user_input_keys number_input) as Hk.
  pose proof (user_input_get number_input) as Hget.
  split.
  - apply (predict_accepted (payload number_input) w m); [done..|].
    apply missing_columns_empty. intros c Hc.
    apply elem_of_columns_frame_of. exists (user_input number_input).
    split; [by left|]. rewrite Hk. by apply Hsub.
  - intros Hne. destruct (REQUIRED_COLUMNS w) as [|c cols] eqn:Hreq; [done|].
    unfold aligned_frame. f_equal.
    change ([get (user_input number_input) <$> c :: cols]
            = [(fun c => Some (number_input c)) <$> c :: cols]).
    f_equal. apply Forall_fmap_ext, Forall_forall. intros k Hkin.
    by apply Hget, Hsub.
Qed.

(** X18: a loaded service whose schema names a column the form does not
    have refuses every payload of the form with 400, once the frame
    constructor takes it; the model is not called. *)
Theorem form_payload_refused_for_foreign_column w (m : @Model value raw)
    number_input c :
  model w = Some m →
  c ∈ REQUIRED_COLUMNS w →
  c ∉ FEATURES →
  pd_reject (instances (payload number_input)) = None →
  ∃ detail,
    predict (payload number_input) w = (Raised (HTTPException 400 detail), w).
Proof.
  intros Hm Hc Hn Hr. eexists.
  apply (predict_missing (payload number_input) w m); [done..|].
  intros He. apply missing_columns_empty in He.
  apply He, elem_of_columns_frame_of in Hc as (d & Hd & Hk).
  apply list_elem_of_singleton in Hd as ->.
  by rewrite user_input_keys in Hk.
Qed.

End Form.

End Client.

(** ** The further facts on concrete services *)

Section MoreInstances.

Import Scenario.

Lemma predict_count_is_length_witness :
  count {| predictions := [1; 0]; count := 2 |}
  = Z.of_nat (length (predictions {| predictions := [1; 0]; count := 2 |})).
Proof.
  apply (predict_count_is_length (rt := runtime) batch_ok ready). reflexivity.
Defined.

Lemma predict_uncastable_label_escapes_witness :
  ∃ msg,
    predict (rt := Fussy.runtime) batch_ok Fussy.ready_neg
    = (Raised (Exception msg),
       log_call (aligned_frame (REQUIRED_COLUMNS Fussy.ready_neg) (instances batch_ok))
         Fussy.ready_neg).
Proof.
  apply (predict_uncastable_label_escapes (rt := Fussy.runtime)
           batch_ok Fussy.ready_neg Fussy.model_neg [-1; -1]).
  - reflexivity.
  - discriminate.
  - reflexivity.
  - vm_compute. reflexivity.
  - reflexivity.
  - left. reflexivity.
Defined.

Lemma predict_reads_required_cells_only_witness :
  predict (rt := runtime)
    {| instances := [[("a", 5); ("b", 2)]; [("a", 1)]] |} ready
  = predict (rt := runtime)
      {| instances := [[("id", 7); ("b", 2); ("a", 5)]; [("a", 1); ("note", 0)]] |} ready.
Proof.
  apply (predict_reads_required_cells_only (rt := runtime) ready).
  - discriminate.
  - repeat constructor; intros c Hc;
      repeat (apply elem_of_cons in Hc as [->|Hc]; [reflexivity|]);
      by apply elem_of_nil in Hc.
  - reflexivity.
  - reflexivity.
Defined.

Lemma predict_forwards_nan_for_absent_key_witness :
  ∃ X row,
    predict_calls (snd (predict (rt := runtime) batch_ragged ready))
    = predict_calls ready ++ [X]
    ∧ columns X = REQUIRED_COLUMNS ready
    ∧ rows X !! 1%nat = Some row
    ∧ row !! 1%nat = Some None.
Proof.
  apply (predict_forwards_nan_for_absent_key (rt := runtime)
           batch_ragged ready model_ab 1 1 [("a", 1)] "b").
  - reflexivity.
  - discriminate.
  - reflexivity.
  - vm_compute. reflexivity.
  - reflexivity.
  - reflexivity.
  - apply (bool_decide_unpack _). reflexivity.
Defined.

Lemma startup_failure_keeps_columns_witness :
  startup_event (Corrupt "unpickling stack underflow") ready
  = (Returned tt,
     {| model := None; REQUIRED_COLUMNS := REQUIRED_COLUMNS ready;
        predict_calls := predict_calls ready |}).
Proof.
  apply (startup_failure_keeps_columns (Corrupt "unpickling stack underflow") ready).
  right; left. by eexists.
Defined.

Lemma predict_missing_detail_plain_witness :
  fst (predict (rt := runtime) batch_no_b ready)
  = Raised (HTTPException 400
      ("Missing required columns: ["
         +:+ Py.join ", "
               ((fun c => "'" +:+ c +:+ "'")
                  <$> Py.sorted (missing_columns (REQUIRED_COLUMNS ready)
                                   (frame_of (instances batch_no_b))))
         +:+ "]")).
Proof.
  apply (predict_missing_detail_plain (rt := runtime) batch_no_b ready model_ab).
  - reflexivity.
  - discriminate.
  - reflexivity.
  - repeat constructor.
  - apply (bool_decide_unpack _). by vm_compute.
Defined.

Lemma forwarded_frame_rectangular_witness :
  ∃ X,
    predict_calls (snd (predict (rt := runtime) batch_ragged ready))
    = predict_calls ready ++ [X]
    ∧ length (rows X) = length (instances batch_ragged)
    ∧ Forall (fun row => length row = length (columns X)) (rows X).
Proof.
  apply (forwarded_frame_rectangular (rt := runtime) batch_ragged ready model_ab).
  - reflexivity.
  - discriminate.
  - reflexivity.
  - vm_compute. reflexivity.
Defined.

Lemma health_caption_ignores_readiness_witness :
  Streamlit.safe_get_health
    (Streamlit.Replied {| Streamlit.status_code := 200; Streamlit.text := "" |})
  = "healthy"
  ∧ (model (initial : @World Z Z) = None →
     ∀ req, status_of (fst (predict (rt := runtime) req initial)) = 503).
Proof.
  apply (health_caption_ignores_readiness (rt := runtime) initial
           {| Streamlit.status_code := 200; Streamlit.text := "" |}).
  reflexivity.
Defined.

Lemma call_api_mirrors_predict_witness :
  (∀ e, fst (predict (rt := runtime) batch_no_b ready) = Raised e →
     ∃ code, (code = 503 ∨ code = 400 ∨ code = 500)
       ∧ Streamlit.call_api (FormScenario.post ready)
           (fun _ => inl "no body" : string + unit) batch_no_b
         = Raised (Exception ("API error " +:+ Py.str_int code +:+ ": " +:+ "")))
  ∧ (∀ body, fst (predict (rt := runtime) batch_no_b ready) = Returned body →
     Streamlit.call_api (FormScenario.post ready)
       (fun _ => inl "no body" : string + unit) batch_no_b
     = Raised (Exception "no body")).
Proof.
  apply (call_api_mirrors_predict (rt := runtime) (FormScenario.post ready)
           (fun _ => inl "no body" : string + unit) batch_no_b ready
           {| Streamlit.status_code := 400; Streamlit.text := "" |});
    reflexivity.
Defined.

Lemma form_payload_reaches_model_witness :
  predict (rt := runtime) (Streamlit.payload FormScenario.number_input)
    FormScenario.ready_two
  = (answer (model_predict FormScenario.model_two
               (aligned_frame (REQUIRED_COLUMNS FormScenario.ready_two)
                  [Streamlit.user_input FormScenario.number_input])),
     log_call (aligned_frame (REQUIRED_COLUMNS FormScenario.ready_two)
                 [Streamlit.user_input FormScenario.number_input])
       FormScenario.ready_two)
  ∧ (REQUIRED_COLUMNS FormScenario.ready_two ≠ [] →
     aligned_frame (REQUIRED_COLUMNS FormScenario.ready_two)
       [Streamlit.user_input FormScenario.number_input]
     = {| columns := REQUIRED_COLUMNS FormScenario.ready_two;
          rows := [(fun c => Some (FormScenario.number_input c))
                     <$> REQUIRED_COLUMNS FormScenario.ready_two] |}).
Proof.
  apply (form_payload_reaches_model (rt := runtime) FormScenario.ready_two
           FormScenario.model_two FormScenario.number_input).
  - reflexivity.
  - apply (bool_decide_unpack _). by vm_compute.
  - reflexivity.
Defined.

Lemma form_payload_refused_for_foreign_column_witness :
  ∃ detail,
    predict (rt := runtime) (Streamlit.payload FormScenario.number_input) ready
    = (Raised (HTTPException 400 detail), ready).
Proof.
  apply (form_payload_refused_for_foreign_column (rt := runtime) ready model_ab
           FormScenario.number_input "a").
  - reflexivity.
  - apply (bool_decide_unpack _). reflexivity.
  - apply (bool_decide_unpack _). by vm_compute.
  - reflexivity.
Defined.

(** The filled form, end to end: area 650 against radius 14 is labelled 1,
    which the form shows as benign. *)
Example scenario_form_benign :
  fst (predict (rt := runtime) (Streamlit.payload FormScenario.number_input)
         FormScenario.ready_two)
  = Returned {| predictions := [1]; count := 1 |}
  ∧ Streamlit.label_from_pred (Streamlit.of_int 1) = "Benign (non-cancer)".
Proof. split; reflexivity. Qed.

End MoreInstances.
